(** * Polly API client ([client.py]): a shallow embedding and its properties

    The module has two public operations, [cast_vote] and
    [get_poll_results], and one shared response handler,
    [_handle_response].  Each operation validates its parameters, builds
    one HTTP request, hands it to the [requests] library and translates
    the response into a parsed JSON value or an exception.

    The embedding keeps the shape of the Python code:
    - Python [int] is [Z]; Python [str] is [string], the UTF-8 bytes of
      the text (the only character the module inspects is the ASCII
      slash, which never occurs inside a multi-byte sequence);
    - a parsed JSON document (what [response.json()] returns) is the
      inductive [json]; a JSON object keeps its members in order;
    - the header dictionary of a request is a [gmap string string];
    - the effects of a call (requests handed to the HTTP library, records
      handed to the module logger) are threaded through an explicit
      [World], and an exception is the left summand of the outcome;
    - the network is outside the module: the HTTP library is a function
      [http] from the request to what [requests.post]/[requests.get] does
      with it (a response, or an exception of the library). *)


From Stdlib Require Import ZArith String Ascii List Lia.
From Stdlib Require Import DecimalString DecimalZ.
From Stdlib Require Import SpecFloat.
From stdpp Require Import base option list gmap strings.

Local Open Scope string_scope.
Local Open Scope Z_scope.

(** ** Python values *)

Module Py.

(** What [response.json()] can produce.  [JNull] is Python's [None];
    a float is kept as an IEEE-754 value so that its truth value
    ([0.0] and [-0.0] are falsy) is the one Python gives it. *)
#[warnings="-register-all"]
Inductive json : Type :=
| JNull
| JBool (b : bool)
| JInt (n : Z)
| JFloat (f : spec_float)
| JStr (s : string)
| JArr (xs : list json)
| JObj (members : list (string * json)).

(** Truth value of an [int] and of a [str], as used by [not x]. *)
Definition int_bool (n : Z) : bool := negb (Z.eqb n 0).
Definition str_bool (s : string) : bool :=
  match s with EmptyString => false | String _ _ => true end.

(** Truth value of a parsed JSON value, as used by [x or y]. *)
Definition truthy (v : json) : bool :=
  match v with
  | JNull => false
  | JBool b => b
  | JInt n => int_bool n
  | JFloat (S754_zero _) => false
  | JFloat _ => true
  | JStr s => str_bool s
  | JArr xs => match xs with nil => false | _ :: _ => true end
  | JObj ms => match ms with nil => false | _ :: _ => true end
  end.

(** [x or y]. *)
Definition or_else (x y : json) : json := if truthy x then x else y.

(** The decimal numeral of [n]: what [str(n)] and the [{n}] field of
    an f-string produce when they produce a string. *)
Definition str_of_int (n : Z) : string := NilZero.string_of_int (Z.to_int n).

(** CPython refuses to convert an [int] of more than
    [sys.get_int_max_str_digits()] decimal digits (4300 unless the
    interpreter is configured otherwise; the sign is not counted): the
    conversion raises [ValueError].  [format_int n] is [None] then. *)
Definition int_max_str_digits : nat := 4300.

Definition digits_of (n : Z) : nat := String.length (str_of_int (Z.abs n)).

Definition format_int (n : Z) : option string :=
  if (int_max_str_digits <? digits_of n)%nat then None else Some (str_of_int n).

Definition int_limit_text : string :=
  "Exceeds the limit (4300 digits) for integer string conversion; use sys.set_int_max_str_digits() to increase the limit".

(** [c in chars] for a one-character [c]. *)
Fixpoint char_in (c : ascii) (chars : string) : bool :=
  match chars with
  | EmptyString => false
  | String d rest => if Ascii.eqb c d then true else char_in c rest
  end.

(** [s.rstrip(chars)]: drop every trailing character that occurs in
    [chars]. *)
Fixpoint rstrip (chars : string) (s : string) : string :=
  match s with
  | EmptyString => EmptyString
  | String c rest =>
      match rstrip chars rest with
      | EmptyString => if char_in c chars then EmptyString else String c EmptyString
      | kept => String c kept
      end
  end.

(** Every character of [s] occurs in [chars]. *)
Fixpoint only_chars (chars s : string) : bool :=
  match s with
  | EmptyString => true
  | String c rest => char_in c chars && only_chars chars rest
  end.

(** The last character of [s], when there is one, occurs in [chars]. *)
Fixpoint ends_in (chars s : string) : bool :=
  match s with
  | EmptyString => false
  | String c EmptyString => char_in c chars
  | String _ rest => ends_in chars rest
  end.

(** [d.get(key)] on a parsed JSON document.  Only a [dict] has [get];
    on any other value the attribute lookup raises [AttributeError],
    which is [None] here. *)
Fixpoint dict_lookup (key : string) (ms : list (string * json)) : option json :=
  match ms with
  | nil => None
  | (k, v) :: rest => if String.eqb k key then Some v else dict_lookup key rest
  end.

Definition get (v : json) (key : string) : option json :=
  match v with
  | JObj ms => Some (default JNull (dict_lookup key ms))
  | _ => None
  end.

End Py.

Import Py.

(** ** The [requests] library, as far as the module uses it *)

Module Requests.

Inductive Method : Type := GET | POST.

(** One call of [requests.post] or [requests.get]: the URL, the
    [headers=] dictionary, the [json=] payload when there is one, and
    the [timeout=] argument in seconds ([None]: wait without limit). *)
Record Request : Type := mkRequest {
  method : Method;
  url : string;
  headers : gmap string string;
  json_payload : option json;
  timeout : option Z
}.

(** What [response.json()] does: it returns the parsed body, it raises
    a [ValueError] (the library's [JSONDecodeError], for a body that is
    not valid JSON), or it raises an exception that is not a
    [ValueError] (a [RecursionError] on a deeply nested body), given by
    class name and message. *)
Inductive Body : Type :=
| Parsed (j : json)
| NotJson
| ParseRaises (cls : string) (msg : string).

(** A [requests.Response], by what the module reads from it. *)
Record Response : Type := mkResponse {
  status_code : Z;
  reason : string;
  response_url : string;
  body_json : Body
}.

(** What [requests.post]/[requests.get] does with its arguments: it
    delivers a response, or it raises an exception of its own, given by
    class name, by whether that class derives from [ValueError] (as
    [MissingSchema], [InvalidURL] and [InvalidHeader] do, and
    [ConnectionError] and [Timeout] do not) and by message. *)
Inductive HttpResult : Type :=
| Responded (r : Response)
| Failed (cls : string) (value_error : bool) (msg : string).

(** [response.raise_for_status()]: [Some msg] when it raises
    [HTTPError(msg)], which [requests] does for a status from 400 to 599
    and for no other. *)
Definition raise_for_status (r : Response) : option string :=
  let code := status_code r in
  if (400 <=? code) && (code <? 500) then
    Some (str_of_int code +:+ " Client Error: " +:+ reason r
          +:+ " for url: " +:+ response_url r)
  else if (500 <=? code) && (code <? 600) then
    Some (str_of_int code +:+ " Server Error: " +:+ reason r
          +:+ " for url: " +:+ response_url r)
  else None.

End Requests.

Import Requests.

(** ** Exceptions, effects and the monad of a call *)

(** The exceptions a call can end in.  [ValueError] is an exception of
    exactly that class: those of the validation and that of the integer
    conversion.  [ApiClientError] carries the argument it was built
    with, a string or the [detail] member of an error body.
    [LibraryError] is an exception raised below the module, inside
    [requests.post]/[requests.get] or inside [response.json()], that no
    handler of the module catches; it keeps its class name and whether
    that class derives from [ValueError].  The [__cause__] that
    [raise ... from exc] records is not kept. *)
Inductive exn : Type :=
| ValueError (msg : string)
| ApiClientError (arg : json)
| LibraryError (cls : string) (value_error : bool) (msg : string).

(** [isinstance(e, ValueError)]. *)
Definition is_ValueError (e : exn) : bool :=
  match e with
  | ValueError _ => true
  | ApiClientError _ => false
  | LibraryError _ v _ => v
  end.

(** A record handed to the module logger: level, format string and
    arguments. *)
Record LogRecord : Type := mkLog {
  level : string;
  format : string;
  args : list json
}.

(** What a call leaves behind: the requests it handed to the HTTP
    library and the records it logged, oldest first. *)
Record World : Type := mkWorld {
  sent : list Request;
  logged : list LogRecord
}.

Definition init : World := mkWorld [] [].

(** A computation reads and extends the world and ends in a value or in
    an exception. *)
Definition M (A : Type) : Type := World -> World * (exn + A).

#[global] Instance M_ret : MRet M := fun A (a : A) w => (w, inr a).
#[global] Instance M_bind : MBind M := fun A B (k : A -> M B) (m : M A) w =>
  match m w with
  | (w', inl e) => (w', inl e)
  | (w', inr a) => k a w'
  end.

Definition raise {A : Type} (e : exn) : M A := fun w => (w, inl e).

Definition logger_error (fmt : string) (xs : list json) : M unit :=
  fun w => (mkWorld (sent w) (logged w ++ [mkLog "ERROR" fmt xs]), inr tt).

(** ** The client *)

Section Client.

(** The HTTP library and the network behind it. *)
Variable http : Request -> HttpResult.

(** [requests.post(url, json=payload, headers=headers, timeout=t)] and
    [requests.get(url, headers=headers, timeout=t)]: the request is
    arguments are handed to the library, which answers or raises.
    [sent] records the calls of the library, also those it refuses
    before anything goes over the network. *)
Definition send (rq : Request) : M Response :=
  fun w =>
    let w' := mkWorld (sent w ++ [rq]) (logged w) in
    match http rq with
    | Responded r => (w', inr r)
    | Failed cls v msg => (w', inl (LibraryError cls v msg))
    end.

Definition requests_post (u : string) (payload : json)
    (hs : gmap string string) (t : Z) : M Response :=
  send (mkRequest POST u hs (Some payload) (Some t)).

Definition requests_get (u : string) (hs : gmap string string) (t : Z)
    : M Response :=
  send (mkRequest GET u hs None (Some t)).

(** [_handle_response]: validate the HTTP response and return its JSON
    body. *)
Definition _handle_response (response : Response) : M json :=
  match raise_for_status response with
  | Some exc =>
      (* msg = response.json().get("detail"), or None when that raises
         anything at all *)
      let msg :=
        match body_json response with
        | Parsed j => default JNull (get j "detail")
        | NotJson | ParseRaises _ _ => JNull
        end in
      raise (ApiClientError (or_else msg (JStr exc)))
  | None =>
      match body_json response with
      | Parsed j => mret j
      | NotJson =>
          raise (ApiClientError (JStr "Response did not contain valid JSON data"))
      | ParseRaises cls msg => raise (LibraryError cls false msg)
      end
  end.

(** The default of the keyword argument [base_url]. *)
Definition default_base_url : string := "http://localhost:8000".

(** [cast_vote(poll_id=, option_id=, token=, base_url=)]. *)
Definition cast_vote (poll_id option_id : Z) (token base_url : string) : M json :=
  if negb (int_bool poll_id) then
    raise (ValueError "Parameter 'poll_id' is required and must be a positive integer")
  else if negb (int_bool option_id) then
    raise (ValueError "Parameter 'option_id' is required and must be a positive integer")
  else if negb (str_bool token) then
    raise (ValueError "Parameter 'token' (JWT) is required")
  else
    match format_int poll_id with
    | None => raise (ValueError int_limit_text)
    | Some digits =>
    let u := rstrip "/" base_url +:+ "/polls/" +:+ digits +:+ "/vote" in
    let hs : gmap string string :=
      <["Accept" := "application/json"]>
        (<["Content-Type" := "application/json"]>
           (<["Authorization" := "Bearer " +:+ token]> ∅)) in
    let payload := JObj [("option_id", JInt option_id)] in
    response ← requests_post u payload hs 10;
    if status_code response =? 401 then
      raise (ApiClientError (JStr "Unauthorized: invalid or expired token"))
    else if status_code response =? 404 then
      raise (ApiClientError (JStr "Poll or option not found"))
    else _handle_response response
    end.

(** [get_poll_results(poll_id=, token=, base_url=)]. *)
Definition get_poll_results (poll_id : Z) (token base_url : string) : M json :=
  if negb (int_bool poll_id) then
    raise (ValueError "Parameter 'poll_id' is required and must be a positive integer")
  else if negb (str_bool token) then
    raise (ValueError "Parameter 'token' (JWT) is required")
  else
    match format_int poll_id with
    | None => raise (ValueError int_limit_text)
    | Some digits =>
    let u := rstrip "/" base_url +:+ "/polls/" +:+ digits +:+ "/results" in
    let hs : gmap string string :=
      <["Accept" := "application/json"]>
        (<["Authorization" := "Bearer " +:+ token]> ∅) in
    response ← requests_get u hs 10;
    if status_code response =? 401 then
      _ ← logger_error "Unauthorized while fetching poll results for poll_id=%s"
            [JInt poll_id];
      raise (ApiClientError (JStr "Unauthorized: invalid or expired token"))
    else if status_code response =? 404 then
      _ ← logger_error "Poll not found when fetching results for poll_id=%s"
            [JInt poll_id];
      raise (ApiClientError (JStr "Poll not found"))
    else _handle_response response
    end.

End Client.

(** ** The public interface as data

    [__all__] exports the two operations.  A [Call] is one invocation of
    either, with its keyword arguments; [run] performs it.  [issued] and
    [outcome] are what a call made from a fresh world hands to the HTTP
    library and how it ends. *)

Inductive Call : Type :=
| CastVote (poll_id option_id : Z) (token base_url : string)
| GetPollResults (poll_id : Z) (token base_url : string).

Definition run (http : Request -> HttpResult) (c : Call) : M json :=
  match c with
  | CastVote p o t b => cast_vote http p o t b
  | GetPollResults p t b => get_poll_results http p t b
  end.

Definition issued (http : Request -> HttpResult) (c : Call) : list Request :=
  sent (fst (run http c init)).

Definition logs (http : Request -> HttpResult) (c : Call) : list LogRecord :=
  logged (fst (run http c init)).

Definition outcome (http : Request -> HttpResult) (c : Call) : exn + json :=
  snd (run http c init).

Definition poll_id_of (c : Call) : Z :=
  match c with CastVote p _ _ _ => p | GetPollResults p _ _ => p end.

Definition token_of (c : Call) : string :=
  match c with CastVote _ _ t _ => t | GetPollResults _ t _ => t end.

Definition base_url_of (c : Call) : string :=
  match c with CastVote _ _ _ b => b | GetPollResults _ _ b => b end.

Definition with_base_url (c : Call) (b : string) : Call :=
  match c with
  | CastVote p o t _ => CastVote p o t b
  | GetPollResults p t _ => GetPollResults p t b
  end.

(** The integer arguments of a call: [poll_id], and [option_id] for
    [cast_vote]. *)
Definition int_params (c : Call) : list Z :=
  match c with
  | CastVote p o _ _ => [p; o]
  | GetPollResults p _ _ => [p]
  end.

(** The last path segment of the endpoint and the text of its 404
    error. *)
Definition endpoint (c : Call) : string :=
  match c with CastVote _ _ _ _ => "/vote" | GetPollResults _ _ _ => "/results" end.

Definition not_found_text (c : Call) : string :=
  match c with
  | CastVote _ _ _ _ => "Poll or option not found"
  | GetPollResults _ _ _ => "Poll not found"
  end.

(** The two readings of "the parameters are acceptable": the one the
    validation implements (nothing is falsy) and the one the error
    messages word (positive integers, non-empty token). *)
Definition all_truthy (c : Call) : bool :=
  forallb int_bool (int_params c) && str_bool (token_of c).

Definition all_positive (c : Call) : bool :=
  forallb (Z.ltb 0) (int_params c) && str_bool (token_of c).

(** How a response is translated once the library has delivered it:
    the status tests of the operation, then [_handle_response]. *)
Definition translate (c : Call) (r : Response) : exn + json :=
  if status_code r =? 401 then
    inl (ApiClientError (JStr "Unauthorized: invalid or expired token"))
  else if status_code r =? 404 then
    inl (ApiClientError (JStr (not_found_text c)))
  else snd (_handle_response r init).

(** ** Sample networks *)

(** A server that answers every request with the response [r]. *)
Definition answering (r : Response) : Request -> HttpResult :=
  fun _ => Responded r.

(** A server that cannot be reached: the library raises. *)
Definition unreachable : Request -> HttpResult :=
  fun _ => Failed "ConnectionError" false "Connection refused".

(** A library that refuses a URL without a scheme before sending
    anything, and otherwise answers with [r]. *)
Definition scheme_checking (r : Response) : Request -> HttpResult :=
  fun rq =>
    if String.prefix "http://" (url rq) || String.prefix "https://" (url rq)
    then Responded r
    else Failed "MissingSchema" true "Invalid URL: No scheme supplied".

(** A poll identifier of 4301 digits. *)
Definition huge_poll_id : Z := 10 ^ 4300.

Definition vote_recorded : json :=
  JObj [("id", JInt 7); ("option_id", JInt 3)].

Definition ok_response : Response :=
  mkResponse 200 "OK" "http://localhost:8000/polls/1/vote" (Parsed vote_recorded).

Definition unauthorized_response : Response :=
  mkResponse 401 "Unauthorized" "http://localhost:8000/polls/1/vote"
    (Parsed (JObj [("detail", JStr "Could not validate credentials")])).

(** A 300 answer with a JSON body and no [Location] header: the library
    does not follow it and delivers it as it is. *)
Definition multiple_choices_response : Response :=
  mkResponse 300 "Multiple Choices" "http://localhost:8000/polls/1/vote"
    (Parsed (JObj [("detail", JStr "choose a representation")])).

(** A validation error of the server, a server error whose body is a
    JSON array, and a success without a body. *)
Definition unprocessable_response : Response :=
  mkResponse 422 "Unprocessable Entity" "http://localhost:8000/polls/1/vote"
    (Parsed (JObj [("detail", JArr [JStr "option_id missing"])])).

Definition server_error_response : Response :=
  mkResponse 500 "Internal Server Error" "http://localhost:8000/polls/1/results"
    (Parsed (JArr [JStr "traceback"])).

Definition no_content_response : Response :=
  mkResponse 204 "No Content" "http://localhost:8000/polls/1/vote" NotJson.

(** A 200 answer whose body nests so deeply that parsing it raises
    [RecursionError]. *)
Definition deeply_nested_response : Response :=
  mkResponse 200 "OK" "http://localhost:8000/polls/1/vote"
    (ParseRaises "RecursionError" "maximum recursion depth exceeded").

Definition not_found_response : Response :=
  mkResponse 404 "Not Found" "http://localhost:8000/polls/1/results"
    (Parsed (JObj [("detail", JStr "Poll not found")])).

(** [cast_vote(poll_id=1, option_id=3, token="tok")] and
    [get_poll_results(poll_id=1, token="tok")], and the requests they
    build. *)
Definition vote_call : Call := CastVote 1 3 "tok" default_base_url.
Definition results_call : Call := GetPollResults 1 "tok" default_base_url.

Definition vote_request : Request :=
  mkRequest POST "http://localhost:8000/polls/1/vote"
    (<["Accept" := "application/json"]>
       (<["Content-Type" := "application/json"]>
          (<["Authorization" := "Bearer tok"]> ∅)))
    (Some (JObj [("option_id", JInt 3)])) (Some 10).

Definition results_request : Request :=
  mkRequest GET "http://localhost:8000/polls/1/results"
    (<["Accept" := "application/json"]>
       (<["Authorization" := "Bearer tok"]> ∅))
    None (Some 10).

(** ** Strings: [rstrip] and decimal numerals *)

Lemma append_empty_l s : EmptyString +:+ s = s.
Proof. reflexivity. Qed.

Lemma append_String c s t : String c s +:+ t = String c (s +:+ t).
Proof. reflexivity. Qed.

Ltac push_append := rewrite ?append_String, ?append_empty_l in *.

Lemma rstrip_only_chars chars s :
  only_chars chars s = true -> rstrip chars s = EmptyString.
Proof.
  induction s as [|c rest IH]; simpl; [reflexivity|].
  intros [Hc Hrest]%andb_prop. rewrite (IH Hrest), Hc. reflexivity.
Qed.

Lemma rstrip_split chars s :
  exists tail, s = rstrip chars s +:+ tail /\ only_chars chars tail = true.
Proof.
  induction s as [|c rest [tail [Heq Htail]]]; simpl.
  - exists EmptyString. split; reflexivity.
  - destruct (rstrip chars rest) as [|d kept] eqn:Hk; push_append.
    + destruct (char_in c chars) eqn:Hc; push_append.
      * exists (String c rest). split; [reflexivity|].
        simpl. rewrite Hc. rewrite Heq. exact Htail.
      * exists tail. push_append. split; [congruence|exact Htail].
    + exists tail. push_append. split; [congruence|exact Htail].
Qed.

Lemma rstrip_ends_in chars s : ends_in chars (rstrip chars s) = false.
Proof.
  induction s as [|c rest IH]; simpl; [reflexivity|].
  destruct (rstrip chars rest) as [|d kept] eqn:Hk.
  - destruct (char_in c chars) eqn:Hc; simpl; [reflexivity|exact Hc].
  - exact IH.
Qed.

Lemma rstrip_app_char chars s c :
  char_in c chars = true ->
  rstrip chars (s +:+ String c EmptyString) = rstrip chars s.
Proof.
  intros Hc. induction s as [|a rest IH]; push_append; simpl.
  - rewrite Hc. reflexivity.
  - rewrite IH. reflexivity.
Qed.

(** [str(n)] reads back as [n]. *)
Lemma str_of_int_reads_back n :
  Z.of_int <$> NilZero.int_of_string (str_of_int n) = Some n.
Proof.
  unfold str_of_int. rewrite NilZero.isi.
  - simpl. f_equal. apply DecimalZ.of_to.
  - destruct n; simpl; [discriminate| |discriminate].
    intros [= H]. exact (DecimalPos.Unsigned.to_uint_nonnil _ H).
  - destruct n; simpl; [discriminate|discriminate|].
    intros [= H]. exact (DecimalPos.Unsigned.to_uint_nonnil _ H).
Qed.

(** The numeral of a positive number has no leading zero. *)
Lemma nzhead_not_D0 d d' : Decimal.nzhead d <> Decimal.D0 d'.
Proof. induction d; simpl; try discriminate; exact IHd. Qed.

Lemma str_of_int_no_leading_zero n rest :
  0 < n -> str_of_int n <> String "0" rest.
Proof.
  destruct n as [|p|p]; try lia. intros _.
  unfold str_of_int. simpl.
  assert (Hn : Decimal.unorm (Pos.to_uint p) = Pos.to_uint p).
  { rewrite <- DecimalPos.Unsigned.to_of, DecimalPos.Unsigned.of_to. reflexivity. }
  destruct (Pos.to_uint p) as [|d|d|d|d|d|d|d|d|d|d] eqn:Hp; simpl; try discriminate.
  exfalso. unfold Decimal.unorm in Hn. simpl in Hn.
  destruct (Decimal.nzhead d) eqn:Hd; try discriminate.
  - injection Hn as <-. exact (DecimalPos.Unsigned.to_uint_nonzero p Hp).
  - injection Hn as Hn. exact (nzhead_not_D0 _ _ Hd).
Qed.

(** A string of characters of ["/"] is a run of slashes, and a string
    that does not end in one is no [s' + "/"]. *)
Lemma only_slashes s :
  only_chars "/" s = true ->
  s = string_of_list_ascii (repeat "/"%char (String.length s)).
Proof.
  induction s as [|c rest IH]; simpl; [reflexivity|].
  destruct (Ascii.eqb_spec c "/"); [|discriminate].
  intros H. subst c. rewrite <- IH by exact H. reflexivity.
Qed.

Lemma ends_in_slash_false s s' :
  ends_in "/" s = false -> s <> s' +:+ "/".
Proof.
  revert s'. induction s as [|c rest IH]; intros s' H E.
  - destruct s'; discriminate.
  - destruct s' as [|c' t]; push_append.
    + injection E as -> ->. discriminate.
    + injection E as -> ->. simpl in H.
      destruct (t +:+ "/") eqn:Ht; [destruct t; discriminate|].
      exact (IH t H (eq_sym Ht)).
Qed.

Lemma format_int_some n :
  (digits_of n <= int_max_str_digits)%nat -> format_int n = Some (str_of_int n).
Proof.
  intros H. unfold format_int.
  destruct (Nat.ltb_spec int_max_str_digits (digits_of n)); [lia|reflexivity].
Qed.

Lemma format_int_none n :
  (int_max_str_digits < digits_of n)%nat -> format_int n = None.
Proof.
  intros H. unfold format_int.
  destruct (Nat.ltb_spec int_max_str_digits (digits_of n)); [reflexivity|lia].
Qed.

(** ** What a call does *)

Lemma all_truthy_CastVote p o t b :
  all_truthy (CastVote p o t b) = true ->
  int_bool p = true /\ int_bool o = true /\ str_bool t = true.
Proof.
  unfold all_truthy. simpl.
  destruct (int_bool p), (int_bool o), (str_bool t); simpl; intuition congruence.
Qed.

Lemma all_truthy_GetPollResults p t b :
  all_truthy (GetPollResults p t b) = true ->
  int_bool p = true /\ str_bool t = true.
Proof.
  unfold all_truthy. simpl.
  destruct (int_bool p), (str_bool t); simpl; intuition congruence.
Qed.

(** A call whose parameters are not all truthy ends in [ValueError]
    and leaves the world as it found it. *)
Lemma run_rejected http c w :
  all_truthy c = false ->
  exists msg, run http c w = (w, inl (ValueError msg)).
Proof.
  destruct c as [p o t b|p t b]; unfold all_truthy; simpl;
    unfold cast_vote, get_poll_results;
    destruct (int_bool p); simpl; eauto;
    try (destruct (int_bool o); simpl; eauto);
    destruct (str_bool t); simpl; eauto; discriminate.
Qed.

(** A call whose parameters are truthy but whose [poll_id] is too long
    to be formatted ends in the [ValueError] of the conversion and
    leaves the world as it found it. *)
Lemma run_unformattable http c w :
  all_truthy c = true ->
  format_int (poll_id_of c) = None ->
  run http c w = (w, inl (ValueError int_limit_text)).
Proof.
  destruct c as [p o t b|p t b]; intros H Hf; simpl in Hf.
  - apply all_truthy_CastVote in H as (Hp & Ho & Ht).
    unfold run, cast_vote. rewrite Hp, Ho, Ht, Hf. reflexivity.
  - apply all_truthy_GetPollResults in H as (Hp & Ht).
    unfold run, get_poll_results. rewrite Hp, Ht, Hf. reflexivity.
Qed.

(** [_handle_response] has no effect on the world, and its result does
    not depend on it. *)
Lemma _handle_response_pure r w :
  _handle_response r w = (w, snd (_handle_response r init)).
Proof.
  unfold _handle_response.
  destruct (raise_for_status r); [reflexivity|].
  destruct (body_json r); reflexivity.
Qed.

Lemma bind_send http rq (k : Response -> M json) w :
  (send http rq ≫= k) w =
  match http rq with
  | Responded r => k r (mkWorld (sent w ++ [rq]) (logged w))
  | Failed cls v msg =>
      (mkWorld (sent w ++ [rq]) (logged w), inl (LibraryError cls v msg))
  end.
Proof.
  unfold mbind, M_bind, send. destruct (http rq); reflexivity.
Qed.

Lemma authorization_first (hs : gmap string string) k1 v1 k2 v2 v :
  k1 <> "Authorization" -> k2 <> "Authorization" ->
  (<[k1 := v1]> (<[k2 := v2]> (<["Authorization" := v]> hs)))
    !! "Authorization" = Some v.
Proof.
  intros H1 H2. rewrite !lookup_insert_ne by assumption.
  apply lookup_insert_eq.
Qed.

Lemma authorization_second (hs : gmap string string) k1 v1 v :
  k1 <> "Authorization" ->
  (<[k1 := v1]> (<["Authorization" := v]> hs)) !! "Authorization" = Some v.
Proof.
  intros H1. rewrite lookup_insert_ne by assumption. apply lookup_insert_eq.
Qed.

(** Closes the goals left after the library has answered with [r]. *)
Ltac after_response r :=
  first
    [ reflexivity
    | apply authorization_first; discriminate
    | apply authorization_second; discriminate
    | unfold translate;
      destruct (status_code r =? 401); [reflexivity|];
      destruct (status_code r =? 404); [reflexivity|];
      rewrite _handle_response_pure; reflexivity ].

(** A call whose parameters are all truthy and whose [poll_id] can be
    formatted calls the library once and ends in the translation of
    what the library does. *)
Lemma run_accepted http c w :
  all_truthy c = true ->
  (digits_of (poll_id_of c) <= int_max_str_digits)%nat ->
  exists rq,
    sent (fst (run http c w)) = (sent w ++ [rq])%list
    /\ url rq = rstrip "/" (base_url_of c) +:+ "/polls/"
                 +:+ str_of_int (poll_id_of c) +:+ endpoint c
    /\ headers rq !! "Authorization" = Some ("Bearer " +:+ token_of c)
    /\ timeout rq = Some 10
    /\ snd (run http c w) =
         match http rq with
         | Responded r => translate c r
         | Failed cls v msg => inl (LibraryError cls v msg)
         end.
Proof.
  destruct c as [p o t b|p t b]; intros H Hf; apply format_int_some in Hf;
    simpl in Hf.
  - apply all_truthy_CastVote in H as (Hp & Ho & Ht).
    unfold run, cast_vote, requests_post. rewrite Hp, Ho, Ht, Hf.
    unfold negb. cbv beta iota zeta. rewrite bind_send.
    match goal with |- context [http ?r] => exists r end.
    destruct (http _) as [r|cls v msg]; simpl;
      repeat split; after_response r.
  - apply all_truthy_GetPollResults in H as (Hp & Ht).
    unfold run, get_poll_results, requests_get. rewrite Hp, Ht, Hf.
    unfold negb. cbv beta iota zeta. rewrite bind_send.
    match goal with |- context [http ?r] => exists r end.
    destruct (http _) as [r|cls v msg]; simpl;
      repeat split; after_response r.
Qed.

(** The same facts for a call made from the fresh world. *)
Lemma rejected http c :
  all_truthy c = false ->
  issued http c = [] /\ exists msg, outcome http c = inl (ValueError msg).
Proof.
  intros H. destruct (run_rejected http c init H) as [msg Hrun].
  unfold issued, outcome. rewrite Hrun. eauto.
Qed.

Lemma unformattable http c :
  all_truthy c = true ->
  (int_max_str_digits < digits_of (poll_id_of c))%nat ->
  issued http c = [] /\ outcome http c = inl (ValueError int_limit_text).
Proof.
  intros H Hf. apply format_int_none in Hf.
  unfold issued, outcome. rewrite (run_unformattable http c init H Hf). auto.
Qed.

Lemma accepted http c :
  all_truthy c = true ->
  (digits_of (poll_id_of c) <= int_max_str_digits)%nat ->
  exists rq,
    issued http c = [rq]
    /\ url rq = rstrip "/" (base_url_of c) +:+ "/polls/"
                 +:+ str_of_int (poll_id_of c) +:+ endpoint c
    /\ headers rq !! "Authorization" = Some ("Bearer " +:+ token_of c)
    /\ timeout rq = Some 10
    /\ outcome http c =
         match http rq with
         | Responded r => translate c r
         | Failed cls v msg => inl (LibraryError cls v msg)
         end.
Proof.
  intros H Hf. destruct (run_accepted http c init H Hf) as (rq & Hs & Hrest).
  exists rq. split; [exact Hs | exact Hrest].
Qed.

(** The validation in terms of the argument values. *)
Lemma all_truthy_false_iff c :
  all_truthy c = false <-> In 0 (int_params c) \/ token_of c = EmptyString.
Proof.
  assert (Hint : forall n, int_bool n = false <-> n = 0).
  { intros n. unfold int_bool. destruct (Z.eqb_spec n 0); simpl; intuition congruence. }
  assert (Hstr : forall s, str_bool s = false <-> s = EmptyString).
  { intros [|a s]; simpl; intuition congruence. }
  unfold all_truthy.
  destruct c as [p o t b|p t b]; simpl;
    rewrite andb_false_iff, ?andb_false_iff, Hstr, !Hint; intuition congruence.
Qed.

Lemma all_truthy_true_iff c :
  all_truthy c = true <-> ~ In 0 (int_params c) /\ token_of c <> EmptyString.
Proof.
  destruct (all_truthy c) eqn:H.
  - split; [intros _|reflexivity].
    assert (Hn : ~ (In 0 (int_params c) \/ token_of c = EmptyString)).
    { rewrite <- all_truthy_false_iff. congruence. }
    tauto.
  - apply all_truthy_false_iff in H. split; [discriminate|tauto].
Qed.

(** Positive integers and a non-empty token pass the validation. *)
Lemma all_positive_all_truthy c : all_positive c = true -> all_truthy c = true.
Proof.
  unfold all_positive, all_truthy, int_bool.
  intros [Hi Ht]%andb_prop. rewrite Ht, andb_true_r.
  rewrite forallb_forall in *. intros n Hn. specialize (Hi n Hn).
  apply Z.ltb_lt in Hi. destruct (Z.eqb_spec n 0); [lia|reflexivity].
Qed.

(** A delivered response is translated into its parsed body, into
    [ApiClientError], or, when parsing the body of a response outside
    400 to 599 raises something other than [ValueError], into that
    exception. *)
Lemma translate_cases c r :
  (exists j, body_json r = Parsed j /\ translate c r = inr j)
  \/ (exists a, translate c r = inl (ApiClientError a))
  \/ (exists cls msg, body_json r = ParseRaises cls msg
                      /\ translate c r = inl (LibraryError cls false msg)).
Proof.
  unfold translate.
  destruct (status_code r =? 401); [right; left; eauto|].
  destruct (status_code r =? 404); [right; left; eauto|].
  unfold _handle_response.
  destruct (raise_for_status r); [right; left; simpl; eauto|].
  destruct (body_json r) as [j| |cls msg]; simpl; eauto 8.
Qed.

(** The request of a call that issued one. *)
Lemma issued_one http c rq :
  issued http c = [rq] ->
  all_truthy c = true
  /\ (digits_of (poll_id_of c) <= int_max_str_digits)%nat
  /\ outcome http c =
       match http rq with
       | Responded r => translate c r
       | Failed cls v msg => inl (LibraryError cls v msg)
       end.
Proof.
  intros Hrq. destruct (all_truthy c) eqn:H.
  - destruct (Nat.le_gt_cases (digits_of (poll_id_of c)) int_max_str_digits)
      as [Hf|Hf].
    + destruct (accepted http c H Hf) as (rq' & Hs & _ & _ & _ & Ho).
      rewrite Hs in Hrq. injection Hrq as ->. auto.
    + destruct (unformattable http c H Hf) as [Hs _]. congruence.
  - destruct (rejected http c H) as [Hs _]. congruence.
Qed.

(** Every call issues at most the one request of an accepted call. *)
Lemma issued_request http c rq :
  In rq (issued http c) ->
  issued http c = [rq]
  /\ headers rq !! "Authorization" = Some ("Bearer " +:+ token_of c)
  /\ timeout rq = Some 10.
Proof.
  intros Hin. destruct (all_truthy c) eqn:H.
  - destruct (Nat.le_gt_cases (digits_of (poll_id_of c)) int_max_str_digits)
      as [Hf|Hf].
    + destruct (accepted http c H Hf) as (rq' & Hs & _ & Ha & Ht & _).
      rewrite Hs in Hin. destruct Hin as [<-|[]]. auto.
    + destruct (unformattable http c H Hf) as [Hs _].
      rewrite Hs in Hin. destruct Hin.
  - destruct (rejected http c H) as [Hs _]. rewrite Hs in Hin. destruct Hin.
Qed.

(** The hypotheses of the sample calls. *)
Lemma vote_call_passes :
  ~ In 0 (int_params vote_call) /\ token_of vote_call <> EmptyString
  /\ (digits_of (poll_id_of vote_call) <= int_max_str_digits)%nat.
Proof.
  split; [simpl; intros [H|[H|[]]]; discriminate|].
  split; [discriminate|]. apply Nat.leb_le. vm_compute. reflexivity.
Qed.

Lemma results_call_passes :
  ~ In 0 (int_params results_call) /\ token_of results_call <> EmptyString
  /\ (digits_of (poll_id_of results_call) <= int_max_str_digits)%nat.
Proof.
  split; [simpl; intros [H|[]]; discriminate|].
  split; [discriminate|]. apply Nat.leb_le. vm_compute. reflexivity.
Qed.

Lemma huge_poll_id_too_long :
  (int_max_str_digits < digits_of huge_poll_id)%nat.
Proof. apply Nat.ltb_lt. vm_compute. reflexivity. Qed.

(** [raise_for_status] raises exactly for a status from 400 to 599. *)
Lemma raise_for_status_error r :
  400 <= status_code r < 600 -> exists text, raise_for_status r = Some text.
Proof.
  intros Hcode. unfold raise_for_status.
  destruct (Z.leb_spec 400 (status_code r)); [|lia].
  destruct (Z.ltb_spec (status_code r) 500); simpl; [eauto|].
  destruct (Z.leb_spec 500 (status_code r)); [|lia].
  destruct (Z.ltb_spec (status_code r) 600); simpl; [eauto|lia].
Qed.

Lemma raise_for_status_quiet r :
  ~ 400 <= status_code r < 600 -> raise_for_status r = None.
Proof.
  intros Hcode. unfold raise_for_status.
  destruct (Z.leb_spec 400 (status_code r)), (Z.ltb_spec (status_code r) 500);
    simpl; try lia;
    destruct (Z.leb_spec 500 (status_code r)), (Z.ltb_spec (status_code r) 600);
    simpl; try lia; reflexivity.
Qed.

Lemma str_bool_append_r a b : str_bool b = true -> str_bool (a +:+ b) = true.
Proof. destruct a; [intros H; exact H | reflexivity]. Qed.

Lemma raise_for_status_text r text :
  raise_for_status r = Some text -> str_bool text = true.
Proof.
  unfold raise_for_status.
  destruct ((400 <=? status_code r) && (status_code r <? 500));
    [|destruct ((500 <=? status_code r) && (status_code r <? 600)); [|discriminate]];
    intros [= <-]; apply str_bool_append_r; reflexivity.
Qed.

(** ** The response handler on sample responses *)

Example handle_detail :
  snd (_handle_response unprocessable_response init)
  = inl (ApiClientError (JArr [JStr "option_id missing"])).
Proof. reflexivity. Qed.

Example handle_server_error :
  snd (_handle_response
         (mkResponse 500 "Internal Server Error" "http://h/polls/1/vote" NotJson) init)
  = inl (ApiClientError
           (JStr "500 Server Error: Internal Server Error for url: http://h/polls/1/vote")).
Proof. reflexivity. Qed.

Example handle_empty_detail :
  snd (_handle_response
         (mkResponse 400 "Bad Request" "http://h/polls/1/vote"
            (Parsed (JObj [("detail", JStr EmptyString)]))) init)
  = inl (ApiClientError
           (JStr "400 Client Error: Bad Request for url: http://h/polls/1/vote")).
Proof. reflexivity. Qed.

Example handle_not_json :
  snd (_handle_response no_content_response init)
  = inl (ApiClientError (JStr "Response did not contain valid JSON data")).
Proof. reflexivity. Qed.

Example results_unauthorized_logged :
  logs (answering unauthorized_response) results_call
  = [mkLog "ERROR" "Unauthorized while fetching poll results for poll_id=%s"
       [JInt 1]].
Proof. reflexivity. Qed.

(** ** Properties of the two operations *)

(** C1.  A call whose parameters pass the validation (and whose
    [poll_id] can be formatted) issues one request, and when that
    request is answered with a status in the 200 range and a body that
    parses as JSON, the call returns exactly that parsed body. *)
Theorem success_returns_parsed_body http c :
  ~ In 0 (int_params c) ->
  token_of c <> EmptyString ->
  (digits_of (poll_id_of c) <= int_max_str_digits)%nat ->
  exists rq,
    issued http c = [rq]
    /\ forall r j,
         http rq = Responded r ->
         200 <= status_code r < 300 ->
         body_json r = Parsed j ->
         outcome http c = inr j.
Proof.
  intros Hint Htok Hf.
  assert (H : all_truthy c = true) by (apply all_truthy_true_iff; auto).
  destruct (accepted http c H Hf) as (rq & Hs & _ & _ & _ & Ho).
  exists rq. split; [exact Hs|]. intros r j Hr Hcode Hj.
  rewrite Ho, Hr. unfold translate, _handle_response, raise_for_status.
  destruct (Z.eqb_spec (status_code r) 401); [lia|].
  destruct (Z.eqb_spec (status_code r) 404); [lia|].
  destruct (Z.leb_spec 400 (status_code r)); [lia|].
  destruct (Z.leb_spec 500 (status_code r)); [lia|].
  simpl. rewrite Hj. reflexivity.
Qed.

Lemma success_returns_parsed_body_witness :
  outcome (answering ok_response) vote_call = inr vote_recorded
  /\ outcome (answering ok_response) results_call = inr vote_recorded.
Proof.
  destruct vote_call_passes as (V1 & V2 & V3).
  destruct results_call_passes as (R1 & R2 & R3).
  destruct (success_returns_parsed_body (answering ok_response) vote_call V1 V2 V3)
    as (rq & _ & Hv).
  destruct (success_returns_parsed_body (answering ok_response) results_call R1 R2 R3)
    as (rq' & _ & Hr).
  split; [apply (Hv ok_response) | apply (Hr ok_response)];
    try reflexivity; simpl; lia.
Defined.

(** C2, as stated, fails in both directions: [poll_id = -1] is not a
    positive integer, yet no [ValueError] is raised and the request for
    poll [-1] is sent; and a positive [poll_id] of 4301 digits with a
    positive [option_id] and a non-empty token ends in [ValueError]. *)
Lemma validation_is_not_positivity :
  (all_positive (CastVote (-1) 3 "tok" default_base_url) = false
   /\ map url (issued (answering ok_response) (CastVote (-1) 3 "tok" default_base_url))
      = ["http://localhost:8000/polls/-1/vote"]
   /\ outcome (answering ok_response) (CastVote (-1) 3 "tok" default_base_url)
      = inr vote_recorded)
  /\ (all_positive (GetPollResults (-1) "tok" default_base_url) = false
      /\ map url (issued (answering ok_response) (GetPollResults (-1) "tok" default_base_url))
         = ["http://localhost:8000/polls/-1/results"]
      /\ outcome (answering ok_response) (GetPollResults (-1) "tok" default_base_url)
         = inr vote_recorded)
  /\ (all_positive (CastVote huge_poll_id 3 "tok" default_base_url) = true
      /\ outcome (answering ok_response) (CastVote huge_poll_id 3 "tok" default_base_url)
         = inl (ValueError int_limit_text)).
Proof. repeat split; vm_compute; reflexivity. Qed.

(** C2, amended.  A call ends in an exception that is a [ValueError]
    exactly when [poll_id] (or, for [cast_vote], [option_id]) is zero,
    or the token is empty, or [poll_id] has more than 4300 decimal
    digits, or the HTTP library raises one of its exceptions that derive
    from [ValueError].  In the first two cases the [ValueError] is the
    validation's and nothing has been handed to the library.  With
    every integer non-zero, a non-empty token and a [poll_id] of at most
    4300 digits the request is issued. *)
Theorem value_error_exactly http c :
  ((exists e, outcome http c = inl e /\ is_ValueError e = true)
   <-> (In 0 (int_params c) \/ token_of c = EmptyString
        \/ (int_max_str_digits < digits_of (poll_id_of c))%nat
        \/ exists rq cls msg,
             issued http c = [rq] /\ http rq = Failed cls true msg))
  /\ (In 0 (int_params c) \/ token_of c = EmptyString ->
      issued http c = [] /\ exists msg, outcome http c = inl (ValueError msg))
  /\ (~ In 0 (int_params c) -> token_of c <> EmptyString ->
      (digits_of (poll_id_of c) <= int_max_str_digits)%nat ->
      exists rq, issued http c = [rq]).
Proof.
  split; [|split].
  - destruct (all_truthy c) eqn:H.
    + destruct (Nat.le_gt_cases (digits_of (poll_id_of c)) int_max_str_digits)
        as [Hf|Hf].
      * destruct (accepted http c H Hf) as (rq & Hs & _ & _ & _ & Ho).
        rewrite Ho. split.
        -- intros (e & He & Hv). right. right. right.
           destruct (http rq) as [r|cls v msg] eqn:Hr.
           ++ destruct (translate_cases c r)
                as [(j & _ & Hj)|[(a & Ha)|(k & m & _ & Hk)]];
                rewrite He in *; try discriminate;
                [injection Ha as ->|injection Hk as ->]; discriminate.
           ++ injection He as <-. simpl in Hv. subst v. eauto.
        -- apply all_truthy_true_iff in H as [Hi Ht].
           intros [?|[?|[?|(rq' & cls & msg & Hs' & Hr')]]];
             try contradiction; try lia.
           rewrite Hs in Hs'. injection Hs' as <-. rewrite Hr'. eauto.
      * destruct (unformattable http c H Hf) as [_ ->]. split; [auto|eauto].
    + destruct (rejected http c H) as [_ [msg ->]].
      apply all_truthy_false_iff in H. split; [tauto|eauto].
  - intros H. apply all_truthy_false_iff in H. apply (rejected http c H).
  - intros Hi Ht Hf.
    assert (H : all_truthy c = true) by (apply all_truthy_true_iff; auto).
    destruct (accepted http c H Hf) as (rq & Hs & _). eauto.
Qed.

Lemma value_error_exactly_witness :
  (exists e, outcome (scheme_checking ok_response)
               (CastVote 1 3 "tok" EmptyString) = inl e
             /\ is_ValueError e = true)
  /\ exists rq, issued (answering ok_response) vote_call = [rq].
Proof.
  destruct vote_call_passes as (V1 & V2 & V3). split.
  - apply (proj1 (value_error_exactly (scheme_checking ok_response)
                    (CastVote 1 3 "tok" EmptyString))).
    right. right. right. eexists _, _, _. split; reflexivity.
  - exact (proj2 (proj2 (value_error_exactly (answering ok_response) vote_call))
             V1 V2 V3).
Defined.

(** C3.  A call whose parameters pass the validation (and whose
    [poll_id] can be formatted) issues one request, and when that
    request is answered with status 401 or 404, the call raises
    [ApiClientError] with the message of that status and of that
    operation, and returns nothing. *)
Theorem status_401_404_descriptive_error http c :
  ~ In 0 (int_params c) ->
  token_of c <> EmptyString ->
  (digits_of (poll_id_of c) <= int_max_str_digits)%nat ->
  exists rq,
    issued http c = [rq]
    /\ forall r,
         http rq = Responded r ->
         status_code r = 401 \/ status_code r = 404 ->
         outcome http c =
           inl (ApiClientError (JStr
             (if status_code r =? 401
              then "Unauthorized: invalid or expired token"
              else match c with
                   | CastVote _ _ _ _ => "Poll or option not found"
                   | GetPollResults _ _ _ => "Poll not found"
                   end))).
Proof.
  intros Hint Htok Hf.
  assert (H : all_truthy c = true) by (apply all_truthy_true_iff; auto).
  destruct (accepted http c H Hf) as (rq & Hs & _ & _ & _ & Ho).
  exists rq. split; [exact Hs|]. intros r Hr Hcode.
  rewrite Ho, Hr. unfold translate, not_found_text.
  destruct Hcode as [-> | ->]; simpl; destruct c; reflexivity.
Qed.

Lemma status_401_404_descriptive_error_witness :
  outcome (answering unauthorized_response) vote_call
  = inl (ApiClientError (JStr "Unauthorized: invalid or expired token"))
  /\ outcome (answering not_found_response) vote_call
     = inl (ApiClientError (JStr "Poll or option not found"))
  /\ outcome (answering unauthorized_response) results_call
     = inl (ApiClientError (JStr "Unauthorized: invalid or expired token"))
  /\ outcome (answering not_found_response) results_call
     = inl (ApiClientError (JStr "Poll not found")).
Proof.
  destruct vote_call_passes as (V1 & V2 & V3).
  destruct results_call_passes as (R1 & R2 & R3).
  destruct (status_401_404_descriptive_error
              (answering unauthorized_response) vote_call V1 V2 V3) as (q1 & _ & H1).
  destruct (status_401_404_descriptive_error
              (answering not_found_response) vote_call V1 V2 V3) as (q2 & _ & H2).
  destruct (status_401_404_descriptive_error
              (answering unauthorized_response) results_call R1 R2 R3) as (q3 & _ & H3).
  destruct (status_401_404_descriptive_error
              (answering not_found_response) results_call R1 R2 R3) as (q4 & _ & H4).
  split; [|split; [|split]].
  - apply (H1 unauthorized_response); [reflexivity | left; reflexivity].
  - apply (H2 not_found_response); [reflexivity | right; reflexivity].
  - apply (H3 unauthorized_response); [reflexivity | left; reflexivity].
  - apply (H4 not_found_response); [reflexivity | right; reflexivity].
Defined.

(** C4 does not hold of the code: a response with status 300, which is
    outside the 200 range, and a JSON body is not turned into
    [ApiClientError]; both operations return its body. *)
Theorem status_300_body_is_returned :
  issued (answering multiple_choices_response) vote_call = [vote_request]
  /\ outcome (answering multiple_choices_response) vote_call
     = inr (JObj [("detail", JStr "choose a representation")])
  /\ issued (answering multiple_choices_response) results_call = [results_request]
  /\ outcome (answering multiple_choices_response) results_call
     = inr (JObj [("detail", JStr "choose a representation")]).
Proof. repeat split; reflexivity. Qed.

(** What the response handling does guarantee: a status from 400 to
    599, and any body that is not valid JSON, end in [ApiClientError]. *)
Lemma client_and_server_errors_raise http c rq r :
  issued http c = [rq] ->
  http rq = Responded r ->
  400 <= status_code r < 600 \/ body_json r = NotJson ->
  exists a, outcome http c = inl (ApiClientError a).
Proof.
  intros Hrq Hr Hbad.
  destruct (issued_one http c rq Hrq) as (_ & _ & ->). rewrite Hr.
  unfold translate.
  destruct (status_code r =? 401); [eauto|].
  destruct (status_code r =? 404); [eauto|].
  unfold _handle_response, raise_for_status.
  destruct (Z.leb_spec 400 (status_code r)), (Z.ltb_spec (status_code r) 500);
    simpl; eauto;
    destruct (Z.leb_spec 500 (status_code r)), (Z.ltb_spec (status_code r) 600);
    simpl; eauto;
    destruct Hbad as [?| ->]; eauto; lia.
Qed.

(** C5, as stated, fails: when the server cannot be reached the library
    raises inside the one call made of it, and the call ends in that
    exception, which is neither a returned result, nor a [ValueError],
    nor [ApiClientError]. *)
Lemma unreachable_server_propagates :
  all_positive vote_call = true
  /\ issued unreachable vote_call = [vote_request]
  /\ outcome unreachable vote_call
     = inl (LibraryError "ConnectionError" false "Connection refused")
  /\ is_ValueError (LibraryError "ConnectionError" false "Connection refused") = false
  /\ (forall j, outcome unreachable vote_call <> inr j)
  /\ (forall msg, outcome unreachable vote_call <> inl (ValueError msg))
  /\ (forall a, outcome unreachable vote_call <> inl (ApiClientError a)).
Proof.
  repeat split; try reflexivity; intros x; vm_compute; discriminate.
Qed.

(** C5, amended.  A call whose parameters pass the validation either
    has a [poll_id] of more than 4300 digits, and then ends in the
    [ValueError] of the integer conversion without calling the HTTP
    library; or it calls the HTTP library exactly once and then ends in
    one of four ways: the library delivers a response and the call
    returns its parsed JSON body; the library delivers a response and
    the call raises [ApiClientError]; the library delivers a response
    whose status is outside 400 to 599 and parsing its body raises an
    exception other than [ValueError], which reaches the caller; or the
    library raises and its exception reaches the caller. *)
Theorem one_request_then_result_or_error http c :
  ~ In 0 (int_params c) ->
  token_of c <> EmptyString ->
  ((int_max_str_digits < digits_of (poll_id_of c))%nat
   /\ issued http c = []
   /\ outcome http c = inl (ValueError int_limit_text))
  \/ ((digits_of (poll_id_of c) <= int_max_str_digits)%nat
      /\ exists rq,
           issued http c = [rq]
           /\ ((exists r j, http rq = Responded r /\ body_json r = Parsed j
                            /\ outcome http c = inr j)
               \/ (exists r a, http rq = Responded r
                               /\ outcome http c = inl (ApiClientError a))
               \/ (exists r cls msg,
                     http rq = Responded r
                     /\ ~ 400 <= status_code r < 600
                     /\ body_json r = ParseRaises cls msg
                     /\ outcome http c = inl (LibraryError cls false msg))
               \/ (exists cls v msg,
                     http rq = Failed cls v msg
                     /\ outcome http c = inl (LibraryError cls v msg)))).
Proof.
  intros Hint Htok.
  assert (H : all_truthy c = true) by (apply all_truthy_true_iff; auto).
  destruct (Nat.le_gt_cases (digits_of (poll_id_of c)) int_max_str_digits)
    as [Hf|Hf].
  - right. split; [exact Hf|].
    destruct (accepted http c H Hf) as (rq & Hs & _ & _ & _ & Ho).
    exists rq. split; [exact Hs|]. rewrite Ho.
    destruct (http rq) as [r|cls v msg]; [|right; right; right; eauto].
    unfold translate.
    destruct (status_code r =? 401); [right; left; eauto|].
    destruct (status_code r =? 404); [right; left; eauto|].
    unfold _handle_response.
    destruct (raise_for_status r) as [text|] eqn:Htext;
      [right; left; simpl; eauto|].
    destruct (body_json r) as [j| |cls msg] eqn:Hb; simpl.
    + left. eauto.
    + right. left. eauto.
    + right. right. left. exists r, cls, msg. repeat split; auto.
      intros Hcode. destruct (raise_for_status_error r Hcode). congruence.
  - left. destruct (unformattable http c H Hf). auto.
Qed.

Lemma one_request_then_result_or_error_witness :
  (exists rq, issued (answering deeply_nested_response) vote_call = [rq])
  /\ (exists rq, issued unreachable results_call = [rq]).
Proof.
  destruct vote_call_passes as (V1 & V2 & V3).
  destruct results_call_passes as (R1 & R2 & R3).
  split.
  - destruct (one_request_then_result_or_error
                (answering deeply_nested_response) vote_call V1 V2)
      as [(Hf & _)|(_ & rq & Hs & _)]; [lia|eauto].
  - destruct (one_request_then_result_or_error unreachable results_call R1 R2)
      as [(Hf & _)|(_ & rq & Hs & _)]; [lia|eauto].
Defined.

(** The fourth way, evaluated: a 200 answer whose body makes the parser
    raise [RecursionError] ends the call in that exception. *)
Example deeply_nested_body_propagates :
  outcome (answering deeply_nested_response) vote_call
  = inl (LibraryError "RecursionError" false "maximum recursion depth exceeded").
Proof. reflexivity. Qed.

(** C6, as stated, fails: for a positive [poll_id] of 4301 digits no
    URL is built and no request is made; formatting the URL raises
    [ValueError]. *)
Lemma huge_poll_id_builds_no_url :
  0 < huge_poll_id
  /\ all_positive (CastVote huge_poll_id 3 "tok" default_base_url) = true
  /\ issued (answering ok_response) (CastVote huge_poll_id 3 "tok" default_base_url) = []
  /\ outcome (answering ok_response) (CastVote huge_poll_id 3 "tok" default_base_url)
     = inl (ValueError int_limit_text)
  /\ all_positive (GetPollResults huge_poll_id "tok" default_base_url) = true
  /\ issued (answering ok_response) (GetPollResults huge_poll_id "tok" default_base_url) = []
  /\ outcome (answering ok_response) (GetPollResults huge_poll_id "tok" default_base_url)
     = inl (ValueError int_limit_text).
Proof. repeat split; vm_compute; reflexivity. Qed.

(** C6, amended.  For a positive [poll_id] of at most 4300 decimal
    digits (and parameters that pass the validation) the call issues
    one request whose URL is: the base URL without its trailing slashes
    (the base URL is that stem followed by a run of slashes, and the
    stem is no string followed by a slash); then [/polls/]; then the
    decimal numeral of [poll_id], which reads back as [poll_id] and has
    no leading zero; then [/vote] for [cast_vote] or [/results] for
    [get_poll_results]. *)
Theorem url_from_base_and_poll_id http c :
  0 < poll_id_of c ->
  ~ In 0 (int_params c) ->
  token_of c <> EmptyString ->
  (digits_of (poll_id_of c) <= int_max_str_digits)%nat ->
  exists rq stem k,
    issued http c = [rq]
    /\ base_url_of c = stem +:+ string_of_list_ascii (repeat "/"%char k)
    /\ (forall s, stem <> s +:+ "/")
    /\ Z.of_int <$> NilZero.int_of_string (str_of_int (poll_id_of c))
       = Some (poll_id_of c)
    /\ (forall rest, str_of_int (poll_id_of c) <> String "0" rest)
    /\ url rq = stem +:+ "/polls/" +:+ str_of_int (poll_id_of c)
                +:+ match c with
                    | CastVote _ _ _ _ => "/vote"
                    | GetPollResults _ _ _ => "/results"
                    end.
Proof.
  intros Hpos Hint Htok Hf.
  assert (H : all_truthy c = true) by (apply all_truthy_true_iff; auto).
  destruct (accepted http c H Hf) as (rq & Hs & Hu & _).
  destruct (rstrip_split "/" (base_url_of c)) as (tail & Hsplit & Htail).
  exists rq, (rstrip "/" (base_url_of c)), (String.length tail).
  split; [exact Hs|]. split; [rewrite <- (only_slashes tail Htail); exact Hsplit|].
  split; [intros s; apply ends_in_slash_false, rstrip_ends_in|].
  split; [apply str_of_int_reads_back|].
  split; [intros rest; apply str_of_int_no_leading_zero, Hpos|].
  rewrite Hu. destruct c; reflexivity.
Qed.

Lemma url_from_base_and_poll_id_witness :
  (exists rq stem k,
     issued unreachable (CastVote 12 3 "tok" "https://polly.example//") = [rq]
     /\ "https://polly.example//" = stem +:+ string_of_list_ascii (repeat "/"%char k)
     /\ (forall s, stem <> s +:+ "/")
     /\ url rq = stem +:+ "/polls/" +:+ str_of_int 12 +:+ "/vote")
  /\ (exists rq stem k,
        issued unreachable (GetPollResults 12 "tok" "https://polly.example//") = [rq]
        /\ "https://polly.example//" = stem +:+ string_of_list_ascii (repeat "/"%char k)
        /\ (forall s, stem <> s +:+ "/")
        /\ url rq = stem +:+ "/polls/" +:+ str_of_int 12 +:+ "/results").
Proof.
  assert (P : 0 < 12) by lia.
  assert (V1 : ~ In 0 (int_params (CastVote 12 3 "tok" "https://polly.example//")))
    by (simpl; intros [H|[H|[]]]; discriminate).
  assert (R1 : ~ In 0 (int_params (GetPollResults 12 "tok" "https://polly.example//")))
    by (simpl; intros [H|[]]; discriminate).
  assert (T : "tok" <> EmptyString) by discriminate.
  assert (F : (digits_of 12 <= int_max_str_digits)%nat)
    by (apply Nat.leb_le; vm_compute; reflexivity).
  split.
  - destruct (url_from_base_and_poll_id unreachable
                (CastVote 12 3 "tok" "https://polly.example//") P V1 T F)
      as (rq & stem & k & H1 & H2 & H3 & _ & _ & H6).
    exists rq, stem, k. auto.
  - destruct (url_from_base_and_poll_id unreachable
                (GetPollResults 12 "tok" "https://polly.example//") P R1 T F)
      as (rq & stem & k & H1 & H2 & H3 & _ & _ & H6).
    exists rq, stem, k. auto.
Defined.

(** The URL of the sample calls, evaluated. *)
Example url_of_sample_calls :
  map url (issued unreachable (CastVote 12 3 "tok" "https://polly.example//"))
  = ["https://polly.example/polls/12/vote"]
  /\ map url (issued unreachable (GetPollResults 12 "tok" "https://polly.example"))
     = ["https://polly.example/polls/12/results"].
Proof. split; reflexivity. Qed.

(** C7.  A call whose parameters pass the validation (and whose
    [poll_id] can be formatted) issues a request, that request carries
    an [Authorization] header whose value is [Bearer ] followed by the
    token argument, and the call issues no other request. *)
Theorem bearer_token_header http c :
  ~ In 0 (int_params c) ->
  token_of c <> EmptyString ->
  (digits_of (poll_id_of c) <= int_max_str_digits)%nat ->
  exists rq,
    issued http c = [rq]
    /\ headers rq !! "Authorization" = Some ("Bearer " +:+ token_of c).
Proof.
  intros Hint Htok Hf.
  assert (H : all_truthy c = true) by (apply all_truthy_true_iff; auto).
  destruct (accepted http c H Hf) as (rq & Hs & _ & Ha & _). eauto.
Qed.

Lemma bearer_token_header_witness :
  (exists rq, issued unreachable vote_call = [rq]
              /\ headers rq !! "Authorization" = Some "Bearer tok")
  /\ (exists rq, issued unreachable results_call = [rq]
                 /\ headers rq !! "Authorization" = Some "Bearer tok").
Proof.
  destruct vote_call_passes as (V1 & V2 & V3).
  destruct results_call_passes as (R1 & R2 & R3).
  split.
  - exact (bearer_token_header unreachable vote_call V1 V2 V3).
  - exact (bearer_token_header unreachable results_call R1 R2 R3).
Defined.

(** C8.  A call whose parameters pass the validation (and whose
    [poll_id] can be formatted) issues its request with a timeout of 10
    seconds, never without one. *)
Theorem ten_second_timeout http c :
  ~ In 0 (int_params c) ->
  token_of c <> EmptyString ->
  (digits_of (poll_id_of c) <= int_max_str_digits)%nat ->
  exists rq, issued http c = [rq] /\ timeout rq = Some 10.
Proof.
  intros Hint Htok Hf.
  assert (H : all_truthy c = true) by (apply all_truthy_true_iff; auto).
  destruct (accepted http c H Hf) as (rq & Hs & _ & _ & Ht & _). eauto.
Qed.

Lemma ten_second_timeout_witness :
  (exists rq, issued (answering ok_response) vote_call = [rq]
              /\ timeout rq = Some 10)
  /\ (exists rq, issued (answering ok_response) results_call = [rq]
                 /\ timeout rq = Some 10).
Proof.
  destruct vote_call_passes as (V1 & V2 & V3).
  destruct results_call_passes as (R1 & R2 & R3).
  split.
  - exact (ten_second_timeout (answering ok_response) vote_call V1 V2 V3).
  - exact (ten_second_timeout (answering ok_response) results_call R1 R2 R3).
Defined.

(** C9.  When [poll_id], [option_id] or the token is falsy, the call
    raises [ValueError] and has handed no request to the HTTP library:
    the world it leaves is the world it found. *)
Theorem validation_before_network http c w :
  In 0 (int_params c) \/ token_of c = EmptyString ->
  issued http c = []
  /\ exists msg, run http c w = (w, inl (ValueError msg)).
Proof.
  intros H. apply all_truthy_false_iff in H. split.
  - apply (rejected http c H).
  - apply (run_rejected http c w H).
Qed.

Lemma validation_before_network_witness :
  (In 0 (int_params (CastVote 1 0 "tok" default_base_url))
   \/ token_of (CastVote 1 0 "tok" default_base_url) = EmptyString)
  /\ issued (answering ok_response) (CastVote 1 0 "tok" default_base_url) = []
  /\ exists msg,
       run (answering ok_response) (CastVote 1 0 "tok" default_base_url) init
       = (init, inl (ValueError msg)).
Proof.
  assert (H : In 0 (int_params (CastVote 1 0 "tok" default_base_url))
              \/ token_of (CastVote 1 0 "tok" default_base_url) = EmptyString)
    by (left; simpl; auto).
  split; [exact H|].
  exact (validation_before_network (answering ok_response)
           (CastVote 1 0 "tok" default_base_url) init H).
Defined.

(** C10.  A call that passes the validation builds the same request
    URL for a base URL and for that base URL with one more slash at its
    end; and when its [poll_id] can be formatted there is such a URL. *)
Theorem trailing_slash_absorbed http c :
  ~ In 0 (int_params c) ->
  token_of c <> EmptyString ->
  map url (issued http (with_base_url c (base_url_of c +:+ "/")))
  = map url (issued http c)
  /\ ((digits_of (poll_id_of c) <= int_max_str_digits)%nat ->
      exists u,
        map url (issued http c) = [u]
        /\ map url (issued http (with_base_url c (base_url_of c +:+ "/"))) = [u]).
Proof.
  intros Hint Htok.
  assert (E : issued http (with_base_url c (base_url_of c +:+ "/")) = issued http c).
  { unfold issued. destruct c as [p o t b|p t b]; simpl;
      unfold cast_vote, get_poll_results;
      rewrite (rstrip_app_char "/" b "/") by reflexivity; reflexivity. }
  rewrite E. split; [reflexivity|]. intros Hf.
  assert (H : all_truthy c = true) by (apply all_truthy_true_iff; auto).
  destruct (accepted http c H Hf) as (rq & Hs & _).
  exists (url rq). rewrite Hs. auto.
Qed.

Lemma trailing_slash_absorbed_witness :
  (map url (issued unreachable
              (with_base_url results_call (base_url_of results_call +:+ "/")))
   = map url (issued unreachable results_call)
   /\ exists u, map url (issued unreachable results_call) = [u])
  /\ (map url (issued unreachable
                 (with_base_url vote_call (base_url_of vote_call +:+ "/")))
      = map url (issued unreachable vote_call)
      /\ exists u, map url (issued unreachable vote_call) = [u]).
Proof.
  destruct vote_call_passes as (V1 & V2 & V3).
  destruct results_call_passes as (R1 & R2 & R3).
  destruct (trailing_slash_absorbed unreachable results_call R1 R2) as [E1 F1].
  destruct (trailing_slash_absorbed unreachable vote_call V1 V2) as [E2 F2].
  destruct (F1 R3) as (u1 & U1 & _). destruct (F2 V3) as (u2 & U2 & _).
  split; (split; [assumption|]).
  - exists u1. exact U1.
  - exists u2. exact U2.
Defined.

(** ** Further properties of the response handling *)

Lemma answered http c rq r :
  issued http c = [rq] -> http rq = Responded r ->
  outcome http c = translate c r.
Proof.
  intros Hrq Hr. destruct (issued_one http c rq Hrq) as (_ & _ & ->).
  rewrite Hr. reflexivity.
Qed.

Lemma translate_other c r :
  status_code r <> 401 -> status_code r <> 404 ->
  translate c r = snd (_handle_response r init).
Proof.
  intros H1 H4. unfold translate.
  destruct (Z.eqb_spec (status_code r) 401); [contradiction|].
  destruct (Z.eqb_spec (status_code r) 404); [contradiction|].
  reflexivity.
Qed.

(** X1.  When an error response (status 400 to 599 other than 401 and
    404) has a JSON object body whose [detail] member is truthy, the
    call raises [ApiClientError] carrying exactly that member, whatever
    its JSON type. *)
Theorem error_detail_is_passed_on http c rq r members d :
  issued http c = [rq] ->
  http rq = Responded r ->
  400 <= status_code r < 600 ->
  status_code r <> 401 ->
  status_code r <> 404 ->
  body_json r = Parsed (JObj members) ->
  dict_lookup "detail" members = Some d ->
  truthy d = true ->
  outcome http c = inl (ApiClientError d).
Proof.
  intros Hrq Hr Hcode H1 H4 Hbody Hd Ht.
  rewrite (answered http c rq r Hrq Hr), translate_other by assumption.
  destruct (raise_for_status_error r Hcode) as [text Htext].
  unfold _handle_response. rewrite Htext, Hbody. simpl. rewrite Hd. simpl.
  unfold or_else. rewrite Ht. reflexivity.
Qed.

Lemma error_detail_is_passed_on_witness :
  outcome (answering unprocessable_response) vote_call
  = inl (ApiClientError (JArr [JStr "option_id missing"])).
Proof.
  apply (error_detail_is_passed_on (answering unprocessable_response)
           vote_call vote_request unprocessable_response
           [("detail", JArr [JStr "option_id missing"])]);
    try reflexivity; simpl; try lia; discriminate.
Defined.

(** X2.  When an error response (status 400 to 599 other than 401 and
    404) offers no truthy [detail] (the body is not JSON, is not a JSON
    object, has no [detail] member, or has a falsy one), the call raises
    [ApiClientError] carrying the text of the library's [HTTPError]. *)
Theorem error_without_detail_uses_http_error http c rq r :
  issued http c = [rq] ->
  http rq = Responded r ->
  400 <= status_code r < 600 ->
  status_code r <> 401 ->
  status_code r <> 404 ->
  (forall members d, body_json r = Parsed (JObj members) ->
                     dict_lookup "detail" members = Some d -> truthy d = false) ->
  exists text,
    raise_for_status r = Some text
    /\ outcome http c = inl (ApiClientError (JStr text)).
Proof.
  intros Hrq Hr Hcode H1 H4 Hnone.
  rewrite (answered http c rq r Hrq Hr), translate_other by assumption.
  destruct (raise_for_status_error r Hcode) as [text Htext].
  exists text. split; [exact Htext|].
  unfold _handle_response. rewrite Htext.
  destruct (body_json r) as [j| |cls msg] eqn:Hbody; [|reflexivity|reflexivity].
  destruct j; try reflexivity.
  simpl. destruct (dict_lookup "detail" members) as [d|] eqn:Hd; [|reflexivity].
  simpl. unfold or_else. rewrite (Hnone members d eq_refl Hd). reflexivity.
Qed.

Lemma error_without_detail_uses_http_error_witness :
  exists text,
    raise_for_status server_error_response = Some text
    /\ outcome (answering server_error_response) results_call
       = inl (ApiClientError (JStr text)).
Proof.
  apply (error_without_detail_uses_http_error (answering server_error_response)
           results_call results_request server_error_response);
    try reflexivity; simpl; try lia; discriminate.
Defined.

(** X3.  When a response whose status is outside 400 to 599 (a 204 with
    an empty body, a 200 with an HTML page) has a body that does not
    parse as JSON, the call raises [ApiClientError] with the text
    [Response did not contain valid JSON data]. *)
Theorem success_without_json_is_error http c rq r :
  issued http c = [rq] ->
  http rq = Responded r ->
  ~ 400 <= status_code r < 600 ->
  body_json r = NotJson ->
  outcome http c
  = inl (ApiClientError (JStr "Response did not contain valid JSON data")).
Proof.
  intros Hrq Hr Hcode Hbody.
  rewrite (answered http c rq r Hrq Hr), translate_other by lia.
  unfold _handle_response.
  rewrite (raise_for_status_quiet r Hcode), Hbody. reflexivity.
Qed.

Lemma success_without_json_is_error_witness :
  outcome (answering no_content_response) vote_call
  = inl (ApiClientError (JStr "Response did not contain valid JSON data")).
Proof.
  apply (success_without_json_is_error (answering no_content_response)
           vote_call vote_request no_content_response);
    try reflexivity; simpl; lia.
Defined.

(** X4.  Whenever a call ends in [ApiClientError], the error carries a
    truthy argument: it is never [None], an empty string or an empty
    container. *)
Theorem api_client_error_is_never_empty http c a :
  outcome http c = inl (ApiClientError a) -> truthy a = true.
Proof.
  intros Ho. destruct (all_truthy c) eqn:H.
  - destruct (Nat.le_gt_cases (digits_of (poll_id_of c)) int_max_str_digits)
      as [Hf|Hf];
      [|destruct (unformattable http c H Hf) as [_ Hu]; congruence].
    destruct (accepted http c H Hf) as (rq & _ & _ & _ & _ & Hout).
    rewrite Hout in Ho. destruct (http rq) as [r|cls v msg]; [|discriminate].
    unfold translate in Ho.
    destruct (status_code r =? 401); [injection Ho as <-; reflexivity|].
    destruct (status_code r =? 404);
      [injection Ho as <-; destruct c; reflexivity|].
    unfold _handle_response in Ho.
    destruct (raise_for_status r) as [text|] eqn:Htext.
    + simpl in Ho. injection Ho as <-. unfold or_else.
      match goal with |- context [if truthy ?m then _ else _] =>
        destruct (truthy m) eqn:Hm end; [exact Hm|].
      simpl. exact (raise_for_status_text r text Htext).
    + destruct (body_json r); simpl in Ho; try discriminate.
      injection Ho as <-. reflexivity.
  - destruct (rejected http c H) as [_ [msg Hmsg]]. congruence.
Qed.

Lemma api_client_error_is_never_empty_witness :
  truthy (JStr "Unauthorized: invalid or expired token") = true.
Proof.
  apply (api_client_error_is_never_empty (answering unauthorized_response)
           vote_call).
  reflexivity.
Defined.


(** ** Logging *)

(** What a call that reached the HTTP library logs. *)
Lemma logs_accepted http c :
  all_truthy c = true ->
  (digits_of (poll_id_of c) <= int_max_str_digits)%nat ->
  exists rq,
    issued http c = [rq]
    /\ logs http c =
         match c, http rq with
         | GetPollResults p _ _, Responded r =>
             if status_code r =? 401 then
               [mkLog "ERROR"
                  "Unauthorized while fetching poll results for poll_id=%s"
                  [JInt p]]
             else if status_code r =? 404 then
               [mkLog "ERROR"
                  "Poll not found when fetching results for poll_id=%s"
                  [JInt p]]
             else []
         | _, _ => []
         end.
Proof.
  destruct c as [p o t b|p t b]; intros H Hf; apply format_int_some in Hf;
    simpl in Hf.
  - apply all_truthy_CastVote in H as (Hp & Ho & Ht).
    unfold issued, logs, run, cast_vote, requests_post. rewrite Hp, Ho, Ht, Hf.
    unfold negb. cbv beta iota zeta. rewrite bind_send.
    match goal with |- context [http ?r] => exists r end.
    destruct (http _) as [r|cls v msg]; simpl; [|auto].
    destruct (status_code r =? 401); [auto|].
    destruct (status_code r =? 404); [auto|].
    rewrite _handle_response_pure. auto.
  - apply all_truthy_GetPollResults in H as (Hp & Ht).
    unfold issued, logs, run, get_poll_results, requests_get. rewrite Hp, Ht, Hf.
    unfold negb. cbv beta iota zeta. rewrite bind_send.
    match goal with |- context [http ?r] => exists r end.
    destruct (http _) as [r|cls v msg]; simpl; [|auto].
    destruct (status_code r =? 401); [auto|].
    destruct (status_code r =? 404); [auto|].
    rewrite _handle_response_pure. auto.
Qed.

Lemma logs_rejected http c : all_truthy c = false -> logs http c = [].
Proof.
  intros H. destruct (run_rejected http c init H) as [msg Hrun].
  unfold logs. rewrite Hrun. reflexivity.
Qed.

Lemma logs_unformattable http c :
  all_truthy c = true ->
  (int_max_str_digits < digits_of (poll_id_of c))%nat ->
  logs http c = [].
Proof.
  intros H Hf. apply format_int_none in Hf.
  unfold logs. rewrite (run_unformattable http c init H Hf). reflexivity.
Qed.

(** X5.  [cast_vote] never logs, whatever its arguments and whatever
    the server does. *)
Theorem cast_vote_never_logs http poll_id option_id token base_url w :
  logged (fst (cast_vote http poll_id option_id token base_url w)) = logged w.
Proof.
  unfold cast_vote, requests_post.
  destruct (int_bool poll_id); [|reflexivity].
  destruct (int_bool option_id); [|reflexivity].
  destruct (str_bool token); [|reflexivity].
  unfold negb. cbv beta iota zeta.
  destruct (format_int poll_id); [|reflexivity].
  rewrite bind_send. destruct (http _) as [r|cls v msg]; [|reflexivity].
  destruct (status_code r =? 401); [reflexivity|].
  destruct (status_code r =? 404); [reflexivity|].
  rewrite _handle_response_pure. reflexivity.
Qed.

(** X6.  [get_poll_results] logs at most one record, at level ERROR and
    with [poll_id] as its argument, and it logs one exactly when its
    request was answered with status 401 or 404. *)
Theorem get_poll_results_logs_401_404 http poll_id token base_url :
  let c := GetPollResults poll_id token base_url in
  (logs http c = []
   \/ exists fmt, logs http c = [mkLog "ERROR" fmt [JInt poll_id]])
  /\ (logs http c <> [] <->
      exists rq r, issued http c = [rq] /\ http rq = Responded r
                   /\ (status_code r = 401 \/ status_code r = 404)).
Proof.
  intros c.
  assert (Hnone : issued http c = [] -> logs http c = [] ->
          (logs http c = []
           \/ exists fmt, logs http c = [mkLog "ERROR" fmt [JInt poll_id]])
          /\ (logs http c <> [] <->
              exists rq r, issued http c = [rq] /\ http rq = Responded r
                           /\ (status_code r = 401 \/ status_code r = 404))).
  { intros Hi Hl. rewrite Hl, Hi.
    split; [left; reflexivity|]. split; [congruence|].
    intros (rq & r & Hs & _). discriminate. }
  destruct (all_truthy c) eqn:H.
  - destruct (Nat.le_gt_cases (digits_of (poll_id_of c)) int_max_str_digits)
      as [Hf|Hf].
    + destruct (logs_accepted http c H Hf) as (rq & Hs & Hl). rewrite Hl. simpl.
      destruct (http rq) as [r|cls v msg] eqn:Hr.
      * destruct (Z.eqb_spec (status_code r) 401) as [E1|N1].
        { split; [right; eauto|].
          split; [intros _; exists rq, r; auto|discriminate]. }
        destruct (Z.eqb_spec (status_code r) 404) as [E4|N4].
        { split; [right; eauto|].
          split; [intros _; exists rq, r; auto|discriminate]. }
        split; [left; reflexivity|]. split; [congruence|].
        intros (rq' & r' & Hs' & Hr' & Hcode).
        rewrite Hs in Hs'. injection Hs' as <-. rewrite Hr in Hr'.
        injection Hr' as <-. lia.
      * split; [left; reflexivity|]. split; [congruence|].
        intros (rq' & r' & Hs' & Hr' & _).
        rewrite Hs in Hs'. injection Hs' as <-. congruence.
    + apply Hnone; [apply (unformattable http c H Hf)
                   |apply (logs_unformattable http c H Hf)].
  - apply Hnone; [apply (rejected http c H)|apply (logs_rejected http c H)].
Qed.

(** ** The shape of the requests *)

(** X7.  The request of [cast_vote] is a POST whose JSON payload is the
    object with the single member [option_id], bound to the argument;
    it announces and accepts JSON, and has no header beside
    [Authorization], [Content-Type] and [Accept]. *)
Theorem cast_vote_request_shape http poll_id option_id token base_url rq :
  In rq (issued http (CastVote poll_id option_id token base_url)) ->
  method rq = POST
  /\ json_payload rq = Some (JObj [("option_id", JInt option_id)])
  /\ headers rq !! "Content-Type" = Some "application/json"
  /\ headers rq !! "Accept" = Some "application/json"
  /\ dom (headers rq)
     = ({["Authorization"; "Content-Type"; "Accept"]} : gset string).
Proof.
  intros Hin.
  destruct (all_truthy (CastVote poll_id option_id token base_url)) eqn:H.
  - apply all_truthy_CastVote in H as (Hp & Ho & Ht). revert Hin.
    unfold issued, run, cast_vote, requests_post. rewrite Hp, Ho, Ht.
    unfold negb. cbv beta iota zeta.
    destruct (format_int poll_id) as [digits|]; [|intros []].
    rewrite bind_send.
    intros Hin.
    assert (Hrq : rq = mkRequest POST
              (rstrip "/" base_url +:+ "/polls/" +:+ digits +:+ "/vote")
              (<["Accept" := "application/json"]>
                 (<["Content-Type" := "application/json"]>
                    (<["Authorization" := "Bearer " +:+ token]> ∅)))
              (Some (JObj [("option_id", JInt option_id)])) (Some 10)).
    { destruct (http _) as [r|cls v msg]; simpl in Hin.
      - destruct (status_code r =? 401); simpl in Hin; [intuition congruence|].
        destruct (status_code r =? 404); simpl in Hin; [intuition congruence|].
        rewrite _handle_response_pure in Hin. simpl in Hin. intuition congruence.
      - intuition congruence. }
    subst rq. simpl. repeat split.
  - destruct (rejected http _ H) as [Hs _]. rewrite Hs in Hin. destruct Hin.
Qed.

Lemma cast_vote_request_shape_witness :
  method vote_request = POST
  /\ json_payload vote_request = Some (JObj [("option_id", JInt 3)])
  /\ headers vote_request !! "Content-Type" = Some "application/json"
  /\ headers vote_request !! "Accept" = Some "application/json"
  /\ dom (headers vote_request)
     = ({["Authorization"; "Content-Type"; "Accept"]} : gset string).
Proof.
  apply (cast_vote_request_shape unreachable 1 3 "tok" default_base_url).
  left. reflexivity.
Defined.

(** X8.  The request of [get_poll_results] is a GET without a payload;
    it accepts JSON and has no header beside [Authorization] and
    [Accept], so no [Content-Type]. *)
Theorem get_poll_results_request_shape http poll_id token base_url rq :
  In rq (issued http (GetPollResults poll_id token base_url)) ->
  method rq = GET
  /\ json_payload rq = None
  /\ headers rq !! "Accept" = Some "application/json"
  /\ headers rq !! "Content-Type" = None
  /\ dom (headers rq) = ({["Authorization"; "Accept"]} : gset string).
Proof.
  intros Hin.
  destruct (all_truthy (GetPollResults poll_id token base_url)) eqn:H.
  - apply all_truthy_GetPollResults in H as (Hp & Ht). revert Hin.
    unfold issued, run, get_poll_results, requests_get. rewrite Hp, Ht.
    unfold negb. cbv beta iota zeta.
    destruct (format_int poll_id) as [digits|]; [|intros []].
    rewrite bind_send.
    intros Hin.
    assert (Hrq : rq = mkRequest GET
              (rstrip "/" base_url +:+ "/polls/" +:+ digits +:+ "/results")
              (<["Accept" := "application/json"]>
                 (<["Authorization" := "Bearer " +:+ token]> ∅))
              None (Some 10)).
    { destruct (http _) as [r|cls v msg]; simpl in Hin.
      - destruct (status_code r =? 401); simpl in Hin; [intuition congruence|].
        destruct (status_code r =? 404); simpl in Hin; [intuition congruence|].
        rewrite _handle_response_pure in Hin. simpl in Hin. intuition congruence.
      - intuition congruence. }
    subst rq. simpl. repeat split.
  - destruct (rejected http _ H) as [Hs _]. rewrite Hs in Hin. destruct Hin.
Qed.

Lemma get_poll_results_request_shape_witness :
  method results_request = GET
  /\ json_payload results_request = None
  /\ headers results_request !! "Accept" = Some "application/json"
  /\ headers results_request !! "Content-Type" = None
  /\ dom (headers results_request) = ({["Authorization"; "Accept"]} : gset string).
Proof.
  apply (get_poll_results_request_shape unreachable 1 "tok" default_base_url).
  left. reflexivity.
Defined.

(** ** More on the URL *)

Lemma rstrip_app_only chars s tail :
  only_chars chars tail = true -> rstrip chars (s +:+ tail) = rstrip chars s.
Proof.
  intros Htail. induction s as [|a rest IH]; push_append.
  - apply rstrip_only_chars, Htail.
  - simpl. rewrite IH. reflexivity.
Qed.

Lemma issued_url http c rq :
  issued http c = [rq] ->
  url rq = rstrip "/" (base_url_of c) +:+ "/polls/"
           +:+ str_of_int (poll_id_of c) +:+ endpoint c.
Proof.
  intros Hrq. destruct (issued_one http c rq Hrq) as (H & Hf & _).
  destruct (accepted http c H Hf) as (rq' & Hs & Hu & _).
  rewrite Hs in Hrq. injection Hrq as <-. exact Hu.
Qed.

Lemma list_ascii_of_append a b :
  list_ascii_of_string (a +:+ b)
  = (list_ascii_of_string a ++ list_ascii_of_string b)%list.
Proof.
  induction a as [|c a IH]; push_append; simpl; [reflexivity|].
  rewrite IH. reflexivity.
Qed.

Lemma append_inv_head s a b : s +:+ a = s +:+ b -> a = b.
Proof.
  induction s as [|c s IH]; push_append; [auto|]. intros [= H]. auto.
Qed.

Lemma append_inv_tail a b e : a +:+ e = b +:+ e -> a = b.
Proof.
  intros H. apply (f_equal list_ascii_of_string) in H.
  rewrite !list_ascii_of_append in H. apply app_inv_tail in H.
  rewrite <- (string_of_list_ascii_of_string a),
          <- (string_of_list_ascii_of_string b).
  congruence.
Qed.

Lemma str_of_int_inj n m : str_of_int n = str_of_int m -> n = m.
Proof.
  intros H. assert (E : Some n = Some m); [|congruence].
  rewrite <- (str_of_int_reads_back n), <- (str_of_int_reads_back m), H.
  reflexivity.
Qed.

(** X9.  The base URL is not validated: when it is empty or consists of
    slashes only (and the call gets as far as building its URL), the
    request still goes out, to the relative URL [/polls/<poll_id>/vote]
    or [/polls/<poll_id>/results]. *)
Theorem base_url_of_slashes_gives_relative_url http c :
  ~ In 0 (int_params c) ->
  token_of c <> EmptyString ->
  (digits_of (poll_id_of c) <= int_max_str_digits)%nat ->
  only_chars "/" (base_url_of c) = true ->
  exists rq,
    issued http c = [rq]
    /\ url rq = "/polls/" +:+ str_of_int (poll_id_of c)
                +:+ match c with
                    | CastVote _ _ _ _ => "/vote"
                    | GetPollResults _ _ _ => "/results"
                    end.
Proof.
  intros Hint Htok Hf Hbase.
  assert (H : all_truthy c = true) by (apply all_truthy_true_iff; auto).
  destruct (accepted http c H Hf) as (rq & Hs & Hu & _).
  exists rq. split; [exact Hs|]. rewrite Hu.
  rewrite (rstrip_only_chars "/" _ Hbase). destruct c; reflexivity.
Qed.

Lemma base_url_of_slashes_gives_relative_url_witness :
  exists rq,
    issued unreachable (CastVote 12 3 "tok" EmptyString) = [rq]
    /\ url rq = "/polls/12/vote".
Proof.
  assert (H1 : ~ In 0 (int_params (CastVote 12 3 "tok" EmptyString)))
    by (simpl; intros [H|[H|[]]]; discriminate).
  assert (H2 : token_of (CastVote 12 3 "tok" EmptyString) <> EmptyString)
    by discriminate.
  assert (H3 : only_chars "/" (base_url_of (CastVote 12 3 "tok" EmptyString)) = true)
    by reflexivity.
  assert (F : (digits_of (poll_id_of (CastVote 12 3 "tok" EmptyString))
               <= int_max_str_digits)%nat)
    by (apply Nat.leb_le; vm_compute; reflexivity).
  exact (base_url_of_slashes_gives_relative_url unreachable
           (CastVote 12 3 "tok" EmptyString) H1 H2 F H3).
Defined.

(** X10.  Any number of slashes appended to the base URL changes
    nothing: the call issues the same request, logs the same records
    and ends the same way. *)
Theorem trailing_slashes_change_nothing http c slashes w :
  only_chars "/" slashes = true ->
  run http (with_base_url c (base_url_of c +:+ slashes)) w = run http c w.
Proof.
  intros Htail.
  destruct c as [p o t b|p t b]; simpl;
    unfold cast_vote, get_poll_results;
    rewrite (rstrip_app_only "/" b slashes Htail); reflexivity.
Qed.

Lemma trailing_slashes_change_nothing_witness :
  run (answering ok_response)
      (with_base_url vote_call (base_url_of vote_call +:+ "///")) init
  = run (answering ok_response) vote_call init.
Proof.
  apply (trailing_slashes_change_nothing (answering ok_response) vote_call "///").
  reflexivity.
Defined.

(** X11.  For one operation and one base URL the poll is determined by
    the URL: two calls whose requests have the same URL have the same
    [poll_id]. *)
Theorem url_determines_poll_id http c1 c2 rq1 rq2 :
  issued http c1 = [rq1] ->
  issued http c2 = [rq2] ->
  base_url_of c1 = base_url_of c2 ->
  endpoint c1 = endpoint c2 ->
  url rq1 = url rq2 ->
  poll_id_of c1 = poll_id_of c2.
Proof.
  intros H1 H2 Hb He Hu.
  rewrite (issued_url http c1 rq1 H1), (issued_url http c2 rq2 H2), Hb, He in Hu.
  apply append_inv_head, append_inv_head, append_inv_tail in Hu.
  exact (str_of_int_inj _ _ Hu).
Qed.

Lemma url_determines_poll_id_witness :
  poll_id_of vote_call = poll_id_of (CastVote 1 5 "other" "http://localhost:8000").
Proof.
  apply (url_determines_poll_id unreachable vote_call
           (CastVote 1 5 "other" "http://localhost:8000")
           vote_request
           (mkRequest POST "http://localhost:8000/polls/1/vote"
              (<["Accept" := "application/json"]>
                 (<["Content-Type" := "application/json"]>
                    (<["Authorization" := "Bearer other"]> ∅)))
              (Some (JObj [("option_id", JInt 5)])) (Some 10)));
    reflexivity.
Defined.

